(** * writing_a_wav_file.py: a shallow embedding of [writeWAVE]

    The repository holds one function,

<<
    def writeWAVE(fname, data):
        file = wave.open(fname, 'wb')
        nChannels = 1
        sampleWidth = 2
        frameRate = 44100
        nFrames = 44100
        file.setparams((nChannels, sampleWidth, frameRate, nFrames,
                        'NONE', 'noncompressed'))
        file.writeframes(data)
        file.close()
>>

    Its behaviour is that of four calls into Python's standard [wave]
    module, reached through the global name [wave].  The source file never
    binds that name, so the namespace in which the body runs is a parameter
    of the embedding: [module_globals] is the one the file builds,
    [imported_globals] the one it would build with [import wave].

    The development has three layers:

    - the platform: exceptions, a state-and-exception monad over a [world]
      made of a disk, a table of open binary file objects and a heap of
      [Wave_write] objects; [struct.pack] for the little-endian fields;
    - the library: [wave.open] in write mode and the [Wave_write] methods
      the function calls, following CPython's [Lib/wave.py] (3.11);
    - the program: the module's global namespace and [writeWAVE] itself.

    The platform is an abstraction of the operating system and of Python's
    [io] layer.  Its choices are not decided by the source, and some of them
    are simpler than a real platform:

    - file objects are unbuffered: a write reaches the disk at once.  The
      object [open] returns in CPython is buffered, and reports a failed
      write when the buffer is flushed, which may be at a later [write],
      [seek], [flush] or [close];
    - the I/O faults are an [open] the platform refuses and a write that
      would take a file beyond the size limit.  Such a write is refused as a
      whole; a real platform may write the part that fits first.  [flush]
      and the closing of a file object do not fail;
    - a path is taken as the identity of a file: two different strings name
      two different files, and one limit applies to every file;
    - the host is little-endian, so [writeframesraw] does not byte-swap;
      [data] is a [bytes] object.

    What is stated about a call that returns (the file it leaves, its header,
    the state of the instance), about the exception of a call that stops
    before the first write, and about the order of the calls in the body,
    does not depend on the first three choices.  The bytes a failed write
    leaves on the disk and the statement in which an I/O fault surfaces do:
    [written] and the second case of [run_result] describe this platform
    only, and no claim below is stated about them. *)

From Stdlib Require Import ZArith Strings.Byte.
From stdpp Require Import gmap strings list fin_maps.

Open Scope Z_scope.

(** ** Exceptions and the state-and-exception monad *)

Inductive exn :=
  | NameError (name : string)
  | AttributeError (attr : string)
  | TypeError (msg : string)
  | ValueError (msg : string)
  | OSError (errno : Z) (filename : option string)
  | wave_Error (msg : string)
  | struct_error (msg : string).

#[global] Instance exn_eq_dec : EqDecision exn.
Proof. solve_decision. Defined.

Inductive outcome (A : Type) :=
  | Return (a : A)
  | Raise (e : exn).
Arguments Return {A} a.
Arguments Raise {A} e.

(** errno values used below *)
Definition EACCES : Z := 13.
Definition EFBIG : Z := 27.

(** ** [struct.pack], little-endian, standard sizes *)

Definition byte_of_Z (z : Z) : byte :=
  default x00 (Byte.of_N (Z.to_N (Z.land z 255))).

Definition Z_of_byte (b : byte) : Z := Z.of_N (Byte.to_N b).

Fixpoint le_encode (k : nat) (v : Z) : list byte :=
  match k with
  | O => []
  | S k' => byte_of_Z v :: le_encode k' (Z.shiftr v 8)
  end.

Fixpoint le_decode (bs : list byte) : Z :=
  match bs with
  | [] => 0
  | b :: bs' => Z.lor (Z_of_byte b) (Z.shiftl (le_decode bs') 8)
  end.

(** One item of a format string with its argument: ['L'] (unsigned 32 bits),
    ['H'] (unsigned 16 bits), ['4s'] (4 bytes, null-padded or cut). *)
Inductive field :=
  | fmt_L (v : Z)
  | fmt_H (v : Z)
  | fmt_4s (v : list byte).

Definition pack_field (f : field) : outcome (list byte) :=
  match f with
  | fmt_L v =>
      if decide (0 <= v < 2 ^ 32) then Return (le_encode 4 v)
      else Raise (struct_error "'L' format requires 0 <= number <= 4294967295")
  | fmt_H v =>
      if decide (0 <= v < 2 ^ 16) then Return (le_encode 2 v)
      else Raise (struct_error "'H' format requires 0 <= number <= 65535")
  | fmt_4s v => Return (resize 4 x00 v)
  end.

Fixpoint struct_pack (fs : list field) : outcome (list byte) :=
  match fs with
  | [] => Return []
  | f :: fs' =>
      match pack_field f with
      | Raise e => Raise e
      | Return bs =>
          match struct_pack fs' with
          | Raise e => Raise e
          | Return bs' => Return (bs ++ bs')
          end
      end
  end.

(** ** The world: disk, open file objects, [Wave_write] objects *)

(** An open binary file object: the path it was opened on and its position. *)
Record file_obj := mk_file_obj { f_path : string; f_pos : nat }.

(** The attributes of a [Wave_write] instance ([_convert] is always [None]
    and is left out; an attribute not yet assigned reads as [None]). *)
Record Wave_write := mk_Wave_write {
  ww_file : option nat;
  ww_i_opened_the_file : option nat;
  ww_nchannels : Z;
  ww_sampwidth : Z;
  ww_framerate : Z;
  ww_nframes : Z;
  ww_comptype : option string;
  ww_compname : option string;
  ww_nframeswritten : Z;
  ww_datawritten : Z;
  ww_datalength : Z;
  ww_headerwritten : bool;
  ww_form_length_pos : option nat;
  ww_data_length_pos : option nat
}.

#[global] Instance Wave_write_inhabited : Inhabited Wave_write :=
  populate (mk_Wave_write None None 0 0 0 0 None None 0 0 0 false None None).

(** The disk maps a path to the contents of the file there; a path string
    stands for the file itself. *)
Record world := mk_world {
  files : gmap string (list byte);   (* the disk: path to contents *)
  denied : gmap string exn;          (* paths [open] refuses, with the error *)
  fsize_limit : option nat;          (* largest file size a write may reach *)
  open_files : gmap nat file_obj;    (* file objects that are open *)
  objs : gmap nat Wave_write         (* Wave_write instances *)
}.

Definition M (A : Type) : Type := world → outcome A * world.

Definition ret {A} (a : A) : M A := λ w, (Return a, w).
Definition raise {A} (e : exn) : M A := λ w, (Raise e, w).
Definition bind {A B} (m : M A) (k : A → M B) : M B :=
  λ w, match m w with
       | (Return a, w') => k a w'
       | (Raise e, w') => (Raise e, w')
       end.

#[global] Instance M_ret : MRet M := @ret.
#[global] Instance M_bind : MBind M := λ A B k m, bind m k.

(** [try: body finally: fin] *)
Definition try_finally {A} (body : M A) (fin : M unit) : M A :=
  λ w, match body w with
       | (r, w1) =>
           match fin w1 with
           | (Return _, w2) => (r, w2)
           | (Raise e, w2) => (Raise e, w2)
           end
       end.

(** Lifting a pure computation that may raise. *)
Definition lift {A} (o : outcome A) : M A := λ w, (o, w).

Definition set_files (F : gmap string (list byte)) (w : world) : world :=
  mk_world F (denied w) (fsize_limit w) (open_files w) (objs w).
Definition set_open_files (O : gmap nat file_obj) (w : world) : world :=
  mk_world (files w) (denied w) (fsize_limit w) O (objs w).
Definition set_objs (H : gmap nat Wave_write) (w : world) : world :=
  mk_world (files w) (denied w) (fsize_limit w) (open_files w) H.

(** ** Binary file objects *)

(** Whether a file may grow to [n] bytes. *)
Definition fits (lim : option nat) (n : nat) : bool :=
  match lim with
  | None => true
  | Some l => bool_decide (n ≤ l)%nat
  end.

(** The contents after writing [bs] at offset [pos]: a gap past the end
    reads as zeros. *)
Definition write_at (pos : nat) (bs c : list byte) : list byte :=
  resize pos x00 c ++ bs ++ drop (pos + length bs) c.

(** [builtins.open(path, 'wb')]: creates or truncates the file. *)
Definition builtins_open_wb (path : string) : M nat :=
  λ w, match denied w !! path with
       | Some e => (Raise e, w)
       | None =>
           let fd := fresh (dom (open_files w)) in
           (Return fd,
            set_open_files (<[fd := mk_file_obj path 0]> (open_files w))
              (set_files (<[path := []]> (files w)) w))
       end.

Definition closed_file {A} : outcome A :=
  Raise (ValueError "I/O operation on closed file").

(** [write] on an unbuffered file object: all of [bs] goes to the disk at
    the position of the object, or, if that would take the file beyond the
    size limit, nothing does and the call raises [OSError] with [EFBIG] (and
    no filename, as the error of a [write] carries none). *)
Definition file_write (fd : nat) (bs : list byte) : M unit :=
  λ w, match open_files w !! fd with
       | None => (closed_file, w)
       | Some fo =>
           let stop := (f_pos fo + length bs)%nat in
           if fits (fsize_limit w) stop then
             (Return tt,
              set_open_files (<[fd := mk_file_obj (f_path fo) stop]> (open_files w))
                (set_files (<[f_path fo :=
                                write_at (f_pos fo) bs (default [] (files w !! f_path fo))]>
                              (files w)) w))
           else (Raise (OSError EFBIG None), w)
       end.

Definition file_tell (fd : nat) : M nat :=
  λ w, match open_files w !! fd with
       | None => (closed_file, w)
       | Some fo => (Return (f_pos fo), w)
       end.

Definition file_seek (fd : nat) (pos : nat) : M unit :=
  λ w, match open_files w !! fd with
       | None => (closed_file, w)
       | Some fo =>
           (Return tt,
            set_open_files (<[fd := mk_file_obj (f_path fo) pos]> (open_files w)) w)
       end.

(** With nothing buffered, [flush] has nothing to write: it fails on a
    closed file object only. *)
Definition file_flush (fd : nat) : M unit :=
  λ w, match open_files w !! fd with
       | None => (closed_file, w)
       | Some _ => (Return tt, w)
       end.

(** [close] on a file object: nothing is pending, so it cannot fail; on a
    closed file object it does nothing. *)
Definition file_close (fd : nat) : M unit :=
  λ w, (Return tt, set_open_files (delete fd (open_files w)) w).

(** ** The [wave] module: [Wave_write] *)

Definition b_RIFF : list byte := [x52; x49; x46; x46].
Definition b_WAVE : list byte := [x57; x41; x56; x45].
Definition b_fmt : list byte := [x66; x6d; x74; x20].
Definition b_data : list byte := [x64; x61; x74; x61].
Definition WAVE_FORMAT_PCM : Z := 1.

(** Reading and assigning the attributes of the instance [id]. *)
Definition self (id : nat) : M Wave_write :=
  λ w, (Return (objs w !!! id), w).
Definition upd (id : nat) (f : Wave_write → Wave_write) : M unit :=
  λ w, (Return tt, set_objs (<[id := f (objs w !!! id)]> (objs w)) w).

Definition with_file v o :=
  mk_Wave_write v (ww_i_opened_the_file o) (ww_nchannels o) (ww_sampwidth o)
    (ww_framerate o) (ww_nframes o) (ww_comptype o) (ww_compname o)
    (ww_nframeswritten o) (ww_datawritten o) (ww_datalength o)
    (ww_headerwritten o) (ww_form_length_pos o) (ww_data_length_pos o).
Definition with_i_opened_the_file v o :=
  mk_Wave_write (ww_file o) v (ww_nchannels o) (ww_sampwidth o)
    (ww_framerate o) (ww_nframes o) (ww_comptype o) (ww_compname o)
    (ww_nframeswritten o) (ww_datawritten o) (ww_datalength o)
    (ww_headerwritten o) (ww_form_length_pos o) (ww_data_length_pos o).
Definition with_nchannels v o :=
  mk_Wave_write (ww_file o) (ww_i_opened_the_file o) v (ww_sampwidth o)
    (ww_framerate o) (ww_nframes o) (ww_comptype o) (ww_compname o)
    (ww_nframeswritten o) (ww_datawritten o) (ww_datalength o)
    (ww_headerwritten o) (ww_form_length_pos o) (ww_data_length_pos o).
Definition with_sampwidth v o :=
  mk_Wave_write (ww_file o) (ww_i_opened_the_file o) (ww_nchannels o) v
    (ww_framerate o) (ww_nframes o) (ww_comptype o) (ww_compname o)
    (ww_nframeswritten o) (ww_datawritten o) (ww_datalength o)
    (ww_headerwritten o) (ww_form_length_pos o) (ww_data_length_pos o).
Definition with_framerate v o :=
  mk_Wave_write (ww_file o) (ww_i_opened_the_file o) (ww_nchannels o)
    (ww_sampwidth o) v (ww_nframes o) (ww_comptype o) (ww_compname o)
    (ww_nframeswritten o) (ww_datawritten o) (ww_datalength o)
    (ww_headerwritten o) (ww_form_length_pos o) (ww_data_length_pos o).
Definition with_nframes v o :=
  mk_Wave_write (ww_file o) (ww_i_opened_the_file o) (ww_nchannels o)
    (ww_sampwidth o) (ww_framerate o) v (ww_comptype o) (ww_compname o)
    (ww_nframeswritten o) (ww_datawritten o) (ww_datalength o)
    (ww_headerwritten o) (ww_form_length_pos o) (ww_data_length_pos o).
Definition with_comptype v v' o :=
  mk_Wave_write (ww_file o) (ww_i_opened_the_file o) (ww_nchannels o)
    (ww_sampwidth o) (ww_framerate o) (ww_nframes o) v v'
    (ww_nframeswritten o) (ww_datawritten o) (ww_datalength o)
    (ww_headerwritten o) (ww_form_length_pos o) (ww_data_length_pos o).
Definition with_nframeswritten v o :=
  mk_Wave_write (ww_file o) (ww_i_opened_the_file o) (ww_nchannels o)
    (ww_sampwidth o) (ww_framerate o) (ww_nframes o) (ww_comptype o)
    (ww_compname o) v (ww_datawritten o) (ww_datalength o)
    (ww_headerwritten o) (ww_form_length_pos o) (ww_data_length_pos o).
Definition with_datawritten v o :=
  mk_Wave_write (ww_file o) (ww_i_opened_the_file o) (ww_nchannels o)
    (ww_sampwidth o) (ww_framerate o) (ww_nframes o) (ww_comptype o)
    (ww_compname o) (ww_nframeswritten o) v (ww_datalength o)
    (ww_headerwritten o) (ww_form_length_pos o) (ww_data_length_pos o).
Definition with_datalength v o :=
  mk_Wave_write (ww_file o) (ww_i_opened_the_file o) (ww_nchannels o)
    (ww_sampwidth o) (ww_framerate o) (ww_nframes o) (ww_comptype o)
    (ww_compname o) (ww_nframeswritten o) (ww_datawritten o) v
    (ww_headerwritten o) (ww_form_length_pos o) (ww_data_length_pos o).
Definition with_headerwritten v o :=
  mk_Wave_write (ww_file o) (ww_i_opened_the_file o) (ww_nchannels o)
    (ww_sampwidth o) (ww_framerate o) (ww_nframes o) (ww_comptype o)
    (ww_compname o) (ww_nframeswritten o) (ww_datawritten o)
    (ww_datalength o) v (ww_form_length_pos o) (ww_data_length_pos o).
Definition with_form_length_pos v o :=
  mk_Wave_write (ww_file o) (ww_i_opened_the_file o) (ww_nchannels o)
    (ww_sampwidth o) (ww_framerate o) (ww_nframes o) (ww_comptype o)
    (ww_compname o) (ww_nframeswritten o) (ww_datawritten o)
    (ww_datalength o) (ww_headerwritten o) v (ww_data_length_pos o).
Definition with_data_length_pos v o :=
  mk_Wave_write (ww_file o) (ww_i_opened_the_file o) (ww_nchannels o)
    (ww_sampwidth o) (ww_framerate o) (ww_nframes o) (ww_comptype o)
    (ww_compname o) (ww_nframeswritten o) (ww_datawritten o)
    (ww_datalength o) (ww_headerwritten o) (ww_form_length_pos o) v.

(** Allocating an instance. *)
Definition new_instance (o : Wave_write) : M nat :=
  λ w, let id := fresh (dom (objs w)) in
       (Return id, set_objs (<[id := o]> (objs w)) w).

(** [Wave_write.__init__] on a path, with [initfp] inlined: the file is
    opened first, so a refused [open] leaves no instance behind. *)
Definition Wave_write_init (f : string) : M nat :=
  fd ← builtins_open_wb f;
  new_instance (mk_Wave_write (Some fd) (Some fd) 0 0 0 0 None None
                  0 0 0 false None None).

(** [wave.open(f, mode)].  Only the write modes are modelled; the read
    modes, which build a [Wave_read], are outside this development and
    are refused like any other string. *)
Definition wave_open (f : string) (mode : string) : M nat :=
  if bool_decide (mode = "w" ∨ mode = "wb") then Wave_write_init f
  else raise (wave_Error "mode must be 'r', 'rb', 'w', or 'wb'").

Definition params : Type := Z * Z * Z * Z * string * string.

Definition changing_after_write {A} : M A :=
  raise (wave_Error "cannot change parameters after starting to write").

Definition setnchannels (id : nat) (nchannels : Z) : M unit :=
  o ← self id;
  if bool_decide (ww_datawritten o ≠ 0) then changing_after_write
  else if bool_decide (nchannels < 1) then raise (wave_Error "bad # of channels")
  else upd id (with_nchannels nchannels).

Definition setsampwidth (id : nat) (sampwidth : Z) : M unit :=
  o ← self id;
  if bool_decide (ww_datawritten o ≠ 0) then changing_after_write
  else if bool_decide (sampwidth < 1 ∨ sampwidth > 4)
       then raise (wave_Error "bad sample width")
  else upd id (with_sampwidth sampwidth).

(** [int(round(framerate))] is the identity on an [int]. *)
Definition setframerate (id : nat) (framerate : Z) : M unit :=
  o ← self id;
  if bool_decide (ww_datawritten o ≠ 0) then changing_after_write
  else if bool_decide (framerate <= 0) then raise (wave_Error "bad frame rate")
  else upd id (with_framerate framerate).

Definition setnframes (id : nat) (nframes : Z) : M unit :=
  o ← self id;
  if bool_decide (ww_datawritten o ≠ 0) then changing_after_write
  else upd id (with_nframes nframes).

Definition setcomptype (id : nat) (comptype compname : string) : M unit :=
  o ← self id;
  if bool_decide (ww_datawritten o ≠ 0) then changing_after_write
  else if bool_decide (comptype ≠ "NONE")
       then raise (wave_Error "unsupported compression type")
  else upd id (with_comptype (Some comptype) (Some compname)).

Definition setparams (id : nat) (p : params) : M unit :=
  let '(nchannels, sampwidth, framerate, nframes, comptype, compname) := p in
  o ← self id;
  if bool_decide (ww_datawritten o ≠ 0) then changing_after_write
  else
    setnchannels id nchannels;;
    setsampwidth id sampwidth;;
    setframerate id framerate;;
    setnframes id nframes;;
    setcomptype id comptype compname.

(** [self._file.<method>]: [None] has no methods. *)
Definition the_file (id : nat) (method : string) : M nat :=
  o ← self id;
  match ww_file o with
  | Some fd => ret fd
  | None => raise (AttributeError method)
  end.

(** [try: self._form_length_pos = self._file.tell()
     except (AttributeError, OSError): self._form_length_pos = None] *)
Definition tell_or_None (id fd : nat) : M unit :=
  λ w, match file_tell fd w with
       | (Return pos, w') => upd id (with_form_length_pos (Some pos)) w'
       | (Raise (OSError _ _), w') | (Raise (AttributeError _), w') =>
           upd id (with_form_length_pos None) w'
       | (Raise e, w') => (Raise e, w')
       end.

Definition _write_header (id : nat) (initlength : Z) : M unit :=
  fd ← the_file id "write";
  file_write fd b_RIFF;;
  o ← self id;
  (if bool_decide (ww_nframes o = 0)
   then upd id (with_nframes (initlength / (ww_nchannels o * ww_sampwidth o)))
   else ret tt);;
  o ← self id;
  upd id (with_datalength (ww_nframes o * ww_nchannels o * ww_sampwidth o));;
  fd ← the_file id "tell";
  tell_or_None id fd;;
  fd ← the_file id "write";
  o ← self id;
  hdr ← lift (struct_pack
    [fmt_L (36 + ww_datalength o); fmt_4s b_WAVE; fmt_4s b_fmt; fmt_L 16;
     fmt_H WAVE_FORMAT_PCM; fmt_H (ww_nchannels o); fmt_L (ww_framerate o);
     fmt_L (ww_nchannels o * ww_framerate o * ww_sampwidth o);
     fmt_H (ww_nchannels o * ww_sampwidth o);
     fmt_H (ww_sampwidth o * 8); fmt_4s b_data]);
  file_write fd hdr;;
  o ← self id;
  (if bool_decide (ww_form_length_pos o ≠ None)
   then fd ← the_file id "tell";
        pos ← file_tell fd;
        upd id (with_data_length_pos (Some pos))
   else ret tt);;
  fd ← the_file id "write";
  o ← self id;
  len ← lift (struct_pack [fmt_L (ww_datalength o)]);
  file_write fd len;;
  upd id (with_headerwritten true).

Definition _ensure_header_written (id : nat) (datasize : Z) : M unit :=
  o ← self id;
  if ww_headerwritten o then ret tt
  else if bool_decide (ww_nchannels o = 0)
       then raise (wave_Error "# channels not specified")
  else if bool_decide (ww_sampwidth o = 0)
       then raise (wave_Error "sample width not specified")
  else if bool_decide (ww_framerate o = 0)
       then raise (wave_Error "sampling rate not specified")
  else _write_header id datasize.

(** [seek] takes an integer: [None] is a [TypeError]. *)
Definition seek_to (fd : nat) (pos : option nat) : M unit :=
  match pos with
  | Some p => file_seek fd p
  | None => raise (TypeError "'NoneType' object cannot be interpreted as an integer")
  end.

Definition _patchheader (id : nat) : M unit :=
  o ← self id;
  if bool_decide (ww_datawritten o = ww_datalength o) then ret tt
  else
    fd ← the_file id "tell";
    curpos ← file_tell fd;
    fd ← the_file id "seek";
    o ← self id;
    seek_to fd (ww_form_length_pos o);;
    fd ← the_file id "write";
    o ← self id;
    bs ← lift (struct_pack [fmt_L (36 + ww_datawritten o)]);
    file_write fd bs;;
    fd ← the_file id "seek";
    o ← self id;
    seek_to fd (ww_data_length_pos o);;
    fd ← the_file id "write";
    o ← self id;
    bs ← lift (struct_pack [fmt_L (ww_datawritten o)]);
    file_write fd bs;;
    fd ← the_file id "seek";
    file_seek fd curpos;;
    o ← self id;
    upd id (with_datalength (ww_datawritten o)).

Definition writeframesraw (id : nat) (data : list byte) : M unit :=
  _ensure_header_written id (Z.of_nat (length data));;
  o ← self id;
  let nframes := Z.of_nat (length data) / (ww_sampwidth o * ww_nchannels o) in
  fd ← the_file id "write";
  file_write fd data;;
  o ← self id;
  upd id (with_datawritten (ww_datawritten o + Z.of_nat (length data)));;
  o ← self id;
  upd id (with_nframeswritten (ww_nframeswritten o + nframes)).

Definition writeframes (id : nat) (data : list byte) : M unit :=
  writeframesraw id data;;
  o ← self id;
  if bool_decide (ww_datalength o ≠ ww_datawritten o) then _patchheader id
  else ret tt.

Definition close (id : nat) : M unit :=
  try_finally
    (o ← self id;
     match ww_file o with
     | Some fd =>
         _ensure_header_written id 0;;
         o ← self id;
         (if bool_decide (ww_datalength o ≠ ww_datawritten o)
          then _patchheader id else ret tt);;
         fd ← the_file id "flush";
         file_flush fd
     | None => ret tt
     end)
    (upd id (with_file None);;
     o ← self id;
     match ww_i_opened_the_file o with
     | Some file =>
         upd id (with_i_opened_the_file None);;
         file_close file
     | None => ret tt
     end).

(** ** The module [writing_a_wav_file] *)

(** Values a global name can be bound to. *)
Inductive pyval :=
  | VFunction (name : string)
  | VModule (name : string).

#[global] Instance pyval_eq_dec : EqDecision pyval.
Proof. solve_decision. Defined.

(** The namespace in which a function body resolves its global names. *)
Abbreviation globals := (gmap string pyval).

(** [LOAD_GLOBAL]: the builtins hold no [wave], so a name the namespace
    does not bind is a [NameError]. *)
Definition load_global (g : globals) (name : string) : M pyval :=
  match g !! name with
  | Some v => ret v
  | None => raise (NameError name)
  end.

(** [wave.open]: attribute [open] of whatever [wave] is bound to. *)
Definition getattr_open (v : pyval) : M (string → string → M nat) :=
  if decide (v = VModule "wave") then ret wave_open
  else raise (AttributeError "open").

Definition writeWAVE (g : globals) (fname : string) (data : list byte) : M unit :=
  wave ← load_global g "wave";
  wave_dot_open ← getattr_open wave;
  file ← wave_dot_open fname "wb";
  let nChannels := 1 in
  let sampleWidth := 2 in
  let frameRate := 44100 in
  let nFrames := 44100 in
  setparams file (nChannels, sampleWidth, frameRate, nFrames,
                  "NONE", "noncompressed");;
  writeframes file data;;
  close file.

(** The namespace the source file builds when it is executed: its one
    statement is the [def], and nothing is imported (the dunder names every
    module has are left out; none of them is [wave]). *)
Definition module_globals : globals :=
  {[ "writeWAVE" := VFunction "writeWAVE" ]}.

(** The same namespace after [import wave]. *)
Definition imported_globals : globals :=
  <["wave" := VModule "wave"]> module_globals.

(** ** Reading a WAVE file back *)

(** The header fields at the offsets where [Wave_read] looks for them in
    a canonical 44-byte header. *)
Definition field_at (c : list byte) (off len : nat) : Z :=
  le_decode (take len (drop off c)).

Definition header_form_length (c : list byte) : Z := field_at c 4 4.
Definition header_format_tag (c : list byte) : Z := field_at c 20 2.
Definition header_nchannels (c : list byte) : Z := field_at c 22 2.
Definition header_framerate (c : list byte) : Z := field_at c 24 4.
Definition header_bits_per_sample (c : list byte) : Z := field_at c 34 2.
Definition header_data_length (c : list byte) : Z := field_at c 40 4.
Definition header_byte_rate (c : list byte) : Z := field_at c 28 4.
Definition header_block_align (c : list byte) : Z := field_at c 32 2.
Definition payload (c : list byte) : list byte := drop 44 c.

(** ** What a call writes *)

(** The part of the header between the two length fields. *)
Definition fmt_chunk : list byte :=
  b_WAVE ++ b_fmt ++ le_encode 4 16 ++ le_encode 2 WAVE_FORMAT_PCM ++
  le_encode 2 1 ++ le_encode 4 44100 ++ le_encode 4 88200 ++ le_encode 2 2 ++
  le_encode 2 16 ++ b_data.

Definition wav_header (form_length data_length : Z) : list byte :=
  b_RIFF ++ le_encode 4 form_length ++ fmt_chunk ++ le_encode 4 data_length.

(** The file a call that returns leaves behind. *)
Definition wav_image (data : list byte) : list byte :=
  wav_header (36 + Z.of_nat (length data)) (Z.of_nat (length data)) ++ data.

(** The file a call leaves behind in general on this platform, where a
    write is done whole or not at all: a write beyond the size limit, or a
    length that does not fit the 32-bit field, stops the call early. *)
Definition written (lim : option nat) (data : list byte) : list byte :=
  if negb (fits lim 4) then []
  else if negb (fits lim 40) then b_RIFF
  else if negb (fits lim 44) then b_RIFF ++ le_encode 4 88236 ++ fmt_chunk
  else if negb (fits lim (44 + length data)) then wav_header 88236 88200
  else if bool_decide (36 + Z.of_nat (length data) < 2 ^ 32) then wav_image data
  else wav_header 88236 88200 ++ data.

(** What [setparams] leaves in the instance, whatever happens later. *)
Definition declared (o : Wave_write) : Prop :=
  ww_nchannels o = 1 ∧ ww_sampwidth o = 2 ∧ ww_framerate o = 44100 ∧
  ww_nframes o = 44100 ∧ ww_comptype o = Some "NONE"%string ∧
  ww_compname o = Some "noncompressed"%string.

(** The results of a call in which [wave.open] succeeded. *)
Inductive run_result (w : world) (fname : string) (data : list byte) :
    outcome unit * world → Prop :=
  | run_returns o c :
      fits (fsize_limit w) (44 + length data) = true →
      36 + Z.of_nat (length data) < 2 ^ 32 →
      c = wav_image data →
      declared o →
      ww_file o = None →
      ww_nframeswritten o = Z.of_nat (length data) / 2 →
      ww_datawritten o = Z.of_nat (length data) →
      run_result w fname data
        (Return tt,
         mk_world (<[fname := c]> (files w)) (denied w) (fsize_limit w)
           (open_files w) (<[fresh (dom (objs w)) := o]> (objs w)))
  | run_raises e o c pos :
      (fits (fsize_limit w) (44 + length data) = false ∧ e = OSError EFBIG None) ∨
      (fits (fsize_limit w) (44 + length data) = true ∧
       2 ^ 32 <= 36 + Z.of_nat (length data) ∧
       e = struct_error "'L' format requires 0 <= number <= 4294967295") →
      c = written (fsize_limit w) data →
      declared o →
      ww_file o = Some (fresh (dom (open_files w))) →
      run_result w fname data
        (Raise e,
         mk_world (<[fname := c]> (files w)) (denied w) (fsize_limit w)
           (<[fresh (dom (open_files w)) := mk_file_obj fname pos]> (open_files w))
           (<[fresh (dom (objs w)) := o]> (objs w))).

(** The places in [writeWAVE] where an exception can arise: resolving the
    name, the attribute, and each of the four calls. *)
Inductive raised_inside (g : globals) (fname : string) (data : list byte)
    (w : world) (e : exn) (w' : world) : Prop :=
  | in_name :
      load_global g "wave" w = (Raise e, w') →
      raised_inside g fname data w e w'
  | in_attribute wave w1 :
      load_global g "wave" w = (Return wave, w1) →
      getattr_open wave w1 = (Raise e, w') →
      raised_inside g fname data w e w'
  | in_open wave w1 wave_dot_open w2 :
      load_global g "wave" w = (Return wave, w1) →
      getattr_open wave w1 = (Return wave_dot_open, w2) →
      wave_dot_open fname "wb"%string w2 = (Raise e, w') →
      raised_inside g fname data w e w'
  | in_setparams wave w1 wave_dot_open w2 file w3 :
      load_global g "wave" w = (Return wave, w1) →
      getattr_open wave w1 = (Return wave_dot_open, w2) →
      wave_dot_open fname "wb"%string w2 = (Return file, w3) →
      setparams file (1, 2, 44100, 44100, "NONE"%string, "noncompressed"%string) w3
        = (Raise e, w') →
      raised_inside g fname data w e w'
  | in_writeframes wave w1 wave_dot_open w2 file w3 w4 :
      load_global g "wave" w = (Return wave, w1) →
      getattr_open wave w1 = (Return wave_dot_open, w2) →
      wave_dot_open fname "wb"%string w2 = (Return file, w3) →
      setparams file (1, 2, 44100, 44100, "NONE"%string, "noncompressed"%string) w3
        = (Return tt, w4) →
      writeframes file data w4 = (Raise e, w') →
      raised_inside g fname data w e w'
  | in_close wave w1 wave_dot_open w2 file w3 w4 w5 :
      load_global g "wave" w = (Return wave, w1) →
      getattr_open wave w1 = (Return wave_dot_open, w2) →
      wave_dot_open fname "wb"%string w2 = (Return file, w3) →
      setparams file (1, 2, 44100, 44100, "NONE"%string, "noncompressed"%string) w3
        = (Return tt, w4) →
      writeframes file data w4 = (Return tt, w5) →
      close file w5 = (Raise e, w') →
      raised_inside g fname data w e w'.

(** Whether the run of the body gets as far as [file.writeframes(data)]
    and that call raises. *)
Definition writeframes_raises (g : globals) (fname : string) (data : list byte)
    (w : world) : bool :=
  match load_global g "wave" w with
  | (Return wave, w1) =>
      match getattr_open wave w1 with
      | (Return wave_dot_open, w2) =>
          match wave_dot_open fname "wb"%string w2 with
          | (Return file, w3) =>
              match setparams file (1, 2, 44100, 44100, "NONE"%string,
                                    "noncompressed"%string) w3 with
              | (Return _, w4) =>
                  match writeframes file data w4 with
                  | (Raise _, _) => true
                  | (Return _, _) => false
                  end
              | (Raise _, _) => false
              end
          | (Raise _, _) => false
          end
      | (Raise _, _) => false
      end
  | (Raise _, _) => false
  end.

(** A computation keeps the file the instance [id] opened if it leaves the
    attribute [_i_opened_the_file] of [id] as it found it, however it ends. *)
Definition keeps_opened {A} (id : nat) (m : M A) : Prop :=
  ∀ w r w', m w = (r, w') →
    ww_i_opened_the_file (objs w' !!! id) = ww_i_opened_the_file (objs w !!! id).

(** The world [w] with the file [fname] holding [c], the file object [fd]
    open on it at [pos], and the instance [id] in state [o]. *)
Definition focus (w : world) (fname : string) (c : list byte)
    (fd pos id : nat) (o : Wave_write) : world :=
  mk_world (<[fname := c]> (files w)) (denied w) (fsize_limit w)
    (<[fd := mk_file_obj fname pos]> (open_files w)) (<[id := o]> (objs w)).

(** ** Worlds used in the examples *)

(** An empty disk with no restriction. *)
Definition empty_world : world := mk_world ∅ ∅ None ∅ ∅.

(** A disk on which no file may exceed 50 bytes. *)
Definition small_world : world := mk_world ∅ ∅ (Some 50%nat) ∅ ∅.

(** A disk holding an old recording, and a path that may not be written. *)
Definition used_world : world :=
  mk_world {[ "a.wav"%string := [x52; x49; x46; x46; xff; xff] ]}
    {[ "ro.wav"%string := OSError EACCES (Some "ro.wav"%string) ]} None ∅ ∅.

(** A world in which another file is open and another instance is live. *)
Definition busy_world : world :=
  mk_world {[ "b.wav"%string := [x01; x02; x03] ]} ∅ None
    {[ 0%nat := mk_file_obj "b.wav" 3 ]}
    {[ 0%nat := mk_Wave_write (Some 0%nat) (Some 0%nat) 2 1 8000 0 None None
                  0 0 0 false None None ]}.

(** * Reasoning about the platform and the library *)

(** ** Little-endian fields *)

Lemma Z_of_byte_of_Z z : Z_of_byte (byte_of_Z z) = Z.land z 255.
Proof.
  unfold Z_of_byte, byte_of_Z.
  assert (Hb : 0 <= Z.land z 255 < 256).
  { change 255 with (Z.ones 8). rewrite Z.land_ones by lia.
    apply Z.mod_pos_bound; lia. }
  destruct (Byte.of_N (Z.to_N (Z.land z 255))) as [b|] eqn:E.
  - apply Byte.to_of_N in E. cbn. rewrite E. lia.
  - apply Byte.of_N_None_iff in E. lia.
Qed.

Lemma low_byte_and_rest v : Z.lor (Z.land v 255) (Z.shiftl (Z.shiftr v 8) 8) = v.
Proof.
  apply Z.bits_inj'; intros n Hn.
  rewrite Z.lor_spec, Z.land_spec, Z.shiftl_spec by lia.
  change 255 with (Z.ones 8). rewrite Z.testbit_ones_nonneg by lia.
  destruct (Z.ltb_spec n 8).
  - rewrite (Z.testbit_neg_r _ (n - 8)) by lia. by rewrite andb_true_r, orb_false_r.
  - rewrite Z.shiftr_spec by lia. rewrite andb_false_r. cbn. f_equal. lia.
Qed.

Lemma le_decode_encode k v :
  0 <= v < 2 ^ (8 * Z.of_nat k) → le_decode (le_encode k v) = v.
Proof.
  revert v. induction k as [|k IH]; intros v Hv.
  - cbn in *. lia.
  - cbn [le_encode le_decode]. rewrite Z_of_byte_of_Z, IH.
    + apply low_byte_and_rest.
    + rewrite Z.shiftr_div_pow2 by lia.
      replace (8 * Z.of_nat (S k)) with (8 + 8 * Z.of_nat k) in Hv by lia.
      rewrite Z.pow_add_r in Hv by lia.
      split; [apply Z.div_pos; lia|].
      apply Z.div_lt_upper_bound; lia.
Qed.

Lemma length_le_encode k v : length (le_encode k v) = k.
Proof. revert v. induction k; intros; cbn; [done|]. by rewrite IHk. Qed.

(** ** Symbolic execution on a focused world *)

Lemma bind_unfold {A B} (m : M A) (k : A → M B) w :
  (m ≫= k) w = match m w with
               | (Return a, w') => k a w'
               | (Raise e, w') => (Raise e, w')
               end.
Proof. reflexivity. Qed.

Section focus.
Context (w : world) (fname : string) (c : list byte).
Context (fd pos id : nat) (o : Wave_write).
Local Abbreviation W := (focus w fname c fd pos id o).

Lemma self_focus : self id W = (Return o, W).
Proof. unfold self, focus; cbn. by rewrite lookup_total_insert_eq. Qed.

Lemma upd_focus f : upd id f W = (Return tt, focus w fname c fd pos id (f o)).
Proof.
  unfold upd, focus, set_objs; cbn.
  by rewrite lookup_total_insert_eq, insert_insert_eq.
Qed.

Lemma file_tell_focus : file_tell fd W = (Return pos, W).
Proof. unfold file_tell, focus; cbn. by rewrite lookup_insert_eq. Qed.

Lemma file_flush_focus : file_flush fd W = (Return tt, W).
Proof. unfold file_flush, focus; cbn. by rewrite lookup_insert_eq. Qed.

Lemma file_seek_focus p :
  file_seek fd p W = (Return tt, focus w fname c fd p id o).
Proof.
  unfold file_seek, focus, set_open_files; cbn.
  by rewrite lookup_insert_eq, insert_insert_eq.
Qed.

Lemma file_write_focus bs :
  file_write fd bs W =
    if fits (fsize_limit w) (pos + length bs)
    then (Return tt, focus w fname (write_at pos bs c) fd (pos + length bs) id o)
    else (Raise (OSError EFBIG None), W).
Proof.
  unfold file_write, focus, set_open_files, set_files; cbn.
  rewrite lookup_insert_eq; cbn. rewrite lookup_insert_eq; cbn.
  destruct (fits _ _); [|done].
  by rewrite !insert_insert_eq.
Qed.

Lemma file_close_focus :
  open_files w !! fd = None →
  file_close fd W =
    (Return tt, mk_world (<[fname := c]> (files w)) (denied w) (fsize_limit w)
                  (open_files w) (<[id := o]> (objs w))).
Proof.
  intros Hfd. unfold file_close, focus, set_open_files; cbn.
  by rewrite delete_insert_id.
Qed.
End focus.

Lemma wave_open_focus w fname :
  denied w !! fname = None →
  wave_open fname "wb" w =
    (Return (fresh (dom (objs w))),
     focus w fname [] (fresh (dom (open_files w))) 0 (fresh (dom (objs w)))
       (mk_Wave_write (Some (fresh (dom (open_files w))))
          (Some (fresh (dom (open_files w)))) 0 0 0 0 None None 0 0 0 false None None)).
Proof.
  intros Hd. unfold wave_open. rewrite bool_decide_eq_true_2 by (by right).
  unfold Wave_write_init.
  rewrite bind_unfold. unfold builtins_open_wb. rewrite Hd. reflexivity.
Qed.

Lemma wave_open_denied w fname e :
  denied w !! fname = Some e → wave_open fname "wb" w = (Raise e, w).
Proof.
  intros Hd. unfold wave_open. rewrite bool_decide_eq_true_2 by (by right).
  unfold Wave_write_init.
  rewrite bind_unfold. unfold builtins_open_wb. by rewrite Hd.
Qed.

#[local] Arguments focus : simpl never.
#[local] Arguments self : simpl never.
#[local] Arguments upd : simpl never.
#[local] Arguments file_write : simpl never.
#[local] Arguments file_tell : simpl never.
#[local] Arguments file_seek : simpl never.
#[local] Arguments file_flush : simpl never.
#[local] Arguments file_close : simpl never.
#[local] Arguments byte_of_Z : simpl never.
#[local] Arguments fits : simpl never.
#[local] Arguments Z.of_nat : simpl never.
#[local] Arguments Z.div : simpl never.

Ltac prim :=
  first [ rewrite self_focus | rewrite upd_focus | rewrite file_tell_focus
        | rewrite file_flush_focus | rewrite file_seek_focus
        | rewrite file_write_focus | rewrite file_close_focus by assumption ].

Lemma fits_le lim m n : (n ≤ m)%nat → fits lim m = true → fits lim n = true.
Proof.
  destruct lim as [l|]; [|done]. unfold fits. intros Hle H.
  apply bool_decide_eq_true_1 in H. apply bool_decide_eq_true_2. lia.
Qed.

Lemma fits_ge lim m n : (m ≤ n)%nat → fits lim m = false → fits lim n = false.
Proof.
  destruct lim as [l|]; [|done]. unfold fits. intros Hle H.
  apply bool_decide_eq_false_1 in H. apply bool_decide_eq_false_2. lia.
Qed.

(** A test is settled by what is known, or else splits the execution. *)
Ltac decide_test :=
  match goal with
  | |- context [bool_decide ?P] =>
      first [ rewrite (bool_decide_eq_true_2 P) by first [lia | done]
            | rewrite (bool_decide_eq_false_2 P) by first [lia | done | (intros H; by apply H)]
            | let H := fresh "Htest" in destruct (bool_decide P) eqn:H;
              [apply bool_decide_eq_true_1 in H | apply bool_decide_eq_false_1 in H] ]
  | |- context [fits ?l ?n] =>
      first [ match goal with
              | H : fits l ?m = true |- _ => rewrite (fits_le l m n ltac:(lia) H)
              | H : fits l ?m = false |- _ => rewrite (fits_ge l m n ltac:(lia) H)
              end
            | let H := fresh "Hfits" in destruct (fits l n) eqn:H ]
  | |- context [decide ?P] =>
      first [ rewrite (decide_True (P:=P)) by lia
            | rewrite (decide_False (P:=P)) by lia
            | destruct (decide P) as [?|?] ]
  end.

Ltac unfold_lib :=
  progress unfold setparams, setnchannels, setsampwidth, setframerate, setnframes,
    setcomptype, writeframes, writeframesraw, _ensure_header_written,
    _write_header, _patchheader, close, the_file, seek_to, tell_or_None, lift,
    try_finally, changing_after_write, mret, M_ret, ret, raise, WAVE_FORMAT_PCM.

Ltac exec :=
  repeat (first [ unfold_lib | rewrite bind_unfold | prim
                | rewrite drop_nil | rewrite app_nil_r | decide_test ]; cbn).

(** ** The calls of [writeWAVE] once [wave.open] succeeded *)

Lemma fresh_fd (w : world) : open_files w !! fresh (dom (open_files w)) = None.
Proof. apply not_elem_of_dom, is_fresh. Qed.

Lemma load_wave_imported : imported_globals !! "wave"%string = Some (VModule "wave").
Proof. reflexivity. Qed.

Lemma writeWAVE_imported w fname data :
  denied w !! fname = None →
  run_result w fname data (writeWAVE imported_globals fname data w).
Proof.
  intros Hd. unfold writeWAVE, load_global. rewrite load_wave_imported.
  unfold ret. rewrite bind_unfold. cbv beta iota.
  unfold getattr_open. rewrite decide_True by done.
  unfold ret. rewrite bind_unfold. cbv beta iota.
  rewrite bind_unfold, wave_open_focus by done. cbv beta iota.
  pose proof (fresh_fd w) as Hfd.
  set (fd := fresh (dom (open_files w))) in *.
  set (id := fresh (dom (objs w))) in *.
  set (n := length data).
  exec; unfold focus.
  all: first
    [ eapply run_raises;
      [ first [ left; split; [decide_test; reflexivity | reflexivity]
              | right; split; [decide_test; reflexivity | split; [lia | reflexivity]] ]
      | unfold written; repeat decide_test; vm_compute; reflexivity
      | repeat split
      | reflexivity ]
    | eapply run_returns;
      [ decide_test; reflexivity
      | lia
      | unfold wav_image;
        first [ reflexivity
              | replace (Z.of_nat (length data)) with 88200 by lia; reflexivity ]
      | repeat split | reflexivity | cbn; f_equal; lia | cbn; lia ] ].
Qed.

(** ** Calls that stop before the file is opened *)

Lemma writeWAVE_unbound g fname data w :
  g !! "wave"%string = None →
  writeWAVE g fname data w = (Raise (NameError "wave"), w).
Proof. intros Hg. unfold writeWAVE, load_global. by rewrite Hg. Qed.

Lemma writeWAVE_not_wave g v fname data w :
  g !! "wave"%string = Some v → v ≠ VModule "wave" →
  writeWAVE g fname data w = (Raise (AttributeError "open"), w).
Proof.
  intros Hg Hv. unfold writeWAVE, load_global. rewrite Hg.
  unfold ret. rewrite bind_unfold. cbv beta iota.
  unfold getattr_open. by rewrite decide_False.
Qed.

Lemma writeWAVE_bound g fname data w :
  g !! "wave"%string = Some (VModule "wave") →
  writeWAVE g fname data w = writeWAVE imported_globals fname data w.
Proof.
  intros Hg. unfold writeWAVE, load_global. by rewrite Hg, load_wave_imported.
Qed.

Lemma writeWAVE_denied g fname data w e :
  g !! "wave"%string = Some (VModule "wave") →
  denied w !! fname = Some e →
  writeWAVE g fname data w = (Raise e, w).
Proof.
  intros Hg Hd. unfold writeWAVE, load_global. rewrite Hg.
  unfold ret. rewrite bind_unfold. cbv beta iota.
  unfold getattr_open. rewrite decide_True by done.
  unfold ret. rewrite bind_unfold. cbv beta iota.
  by rewrite bind_unfold, (wave_open_denied _ _ e).
Qed.

(** Every call either stops before the file is opened, leaving the world
    as it was, or runs the library calls on the opened file. *)
Lemma writeWAVE_early_or_run g fname data w :
  (∃ e, writeWAVE g fname data w = (Raise e, w) ∧
        (g !! "wave"%string ≠ Some (VModule "wave") ∨ denied w !! fname = Some e)) ∨
  (g !! "wave"%string = Some (VModule "wave") ∧ denied w !! fname = None ∧
   run_result w fname data (writeWAVE g fname data w)).
Proof.
  destruct (g !! "wave"%string) as [v|] eqn:Hg.
  - destruct (decide (v = VModule "wave")) as [->|Hv].
    + destruct (denied w !! fname) as [e|] eqn:Hd.
      * left. exists e. split; [by apply writeWAVE_denied | by right].
      * right. split; [done|]. split; [done|].
        rewrite writeWAVE_bound by done. by apply writeWAVE_imported.
    + left. eexists. split; [by eapply writeWAVE_not_wave|]. left. congruence.
  - left. eexists. split; [by apply writeWAVE_unbound|]. left. congruence.
Qed.

Lemma writeWAVE_returns g fname data w w' :
  writeWAVE g fname data w = (Return tt, w') →
  ∃ o, w' = mk_world (<[fname := wav_image data]> (files w)) (denied w)
               (fsize_limit w) (open_files w) (<[fresh (dom (objs w)) := o]> (objs w)) ∧
       declared o ∧ ww_file o = None ∧
       ww_nframeswritten o = Z.of_nat (length data) / 2 ∧
       fits (fsize_limit w) (44 + length data) = true ∧
       36 + Z.of_nat (length data) < 2 ^ 32 ∧
       g !! "wave"%string = Some (VModule "wave") ∧ denied w !! fname = None.
Proof.
  intros Hr. destruct (writeWAVE_early_or_run g fname data w) as [(e & He & _)|(Hg & Hd & Hrun)].
  - congruence.
  - rewrite Hr in Hrun. inversion Hrun; subst. eauto 10.
Qed.

Lemma written_returns lim data :
  fits lim (44 + length data) = true →
  36 + Z.of_nat (length data) < 2 ^ 32 →
  written lim data = wav_image data.
Proof.
  intros Hf Hn. unfold written.
  rewrite (fits_le lim (44 + length data) 4), (fits_le lim (44 + length data) 40),
    (fits_le lim (44 + length data) 44), Hf by (done || lia). cbn.
  by rewrite bool_decide_eq_true_2.
Qed.

(** The disk after a call that opened the file: the file holds what the
    call wrote, from the first byte on, whatever it held before. *)
Lemma writeWAVE_files g fname data w :
  g !! "wave"%string = Some (VModule "wave") → denied w !! fname = None →
  let w' := snd (writeWAVE g fname data w) in
  files w' = <[fname := written (fsize_limit w) data]> (files w) ∧
  denied w' = denied w ∧ fsize_limit w' = fsize_limit w.
Proof.
  intros Hg Hd.
  destruct (writeWAVE_early_or_run g fname data w) as [(e & He & [?|?])|(_ & _ & Hrun)];
    [congruence..|].
  inversion Hrun as [o c Hf Hn -> Ho _ _ _ E|e o c pos Hc -> Ho _ E]; cbn; [|done].
  by rewrite written_returns.
Qed.

Lemma writeWAVE_unopened g fname data w :
  g !! "wave"%string ≠ Some (VModule "wave") ∨ is_Some (denied w !! fname) →
  ∃ e, writeWAVE g fname data w = (Raise e, w).
Proof.
  intros H.
  destruct (writeWAVE_early_or_run g fname data w) as [(e & He & _)|(Hg & Hd & _)];
    [by exists e|].
  destruct H as [?|[? ?]]; congruence.
Qed.

(** ** The header of a complete file *)

Lemma wav_image_fields data :
  36 + Z.of_nat (length data) < 2 ^ 32 →
  take 4 (wav_image data) = b_RIFF ∧
  header_form_length (wav_image data) = 36 + Z.of_nat (length data) ∧
  take 8 (drop 8 (wav_image data)) = b_WAVE ++ b_fmt ∧
  header_format_tag (wav_image data) = WAVE_FORMAT_PCM ∧
  header_nchannels (wav_image data) = 1 ∧
  header_framerate (wav_image data) = 44100 ∧
  header_bits_per_sample (wav_image data) = 16 ∧
  header_data_length (wav_image data) = Z.of_nat (length data) ∧
  payload (wav_image data) = data.
Proof.
  intros Hn.
  unfold header_form_length, header_data_length, field_at.
  repeat split; try reflexivity.
  - change (take 4 (drop 4 (wav_image data)))
      with (le_encode 4 (36 + Z.of_nat (length data))).
    apply le_decode_encode. change (2 ^ (8 * Z.of_nat 4)) with (2 ^ 32). lia.
  - change (take 4 (drop 40 (wav_image data)))
      with (le_encode 4 (Z.of_nat (length data))).
    apply le_decode_encode. change (2 ^ (8 * Z.of_nat 4)) with (2 ^ 32). lia.
Qed.

(** With [import wave] in place, a call on a path that can be opened, with
    a buffer that fits the file-size limit and the 32-bit length fields,
    returns and leaves a file whose header declares one channel, 16 bits
    per sample and 44100 frames per second. *)
Lemma writeWAVE_imported_header fname data w :
  denied w !! fname = None →
  fits (fsize_limit w) (44 + length data) = true →
  36 + Z.of_nat (length data) < 2 ^ 32 →
  ∃ w' c, writeWAVE imported_globals fname data w = (Return tt, w') ∧
          files w' !! fname = Some c ∧
          header_nchannels c = 1 ∧ header_bits_per_sample c = 16 ∧
          header_framerate c = 44100.
Proof.
  intros Hd Hf Hn.
  pose proof (writeWAVE_imported w fname data Hd) as Hrun.
  inversion Hrun as [o c _ _ Hc _ _ _ _ E|e o c pos Hc _ _ _ E]; subst.
  - eexists _, _. split; [done|]. cbn. rewrite lookup_insert_eq.
    split; [done|].
    destruct (wav_image_fields data Hn) as (_ & _ & _ & _ & ? & ? & ? & _). done.
  - destruct Hc as [[? _]|(_ & ? & _)]; [congruence|lia].
Qed.

(** ** Small runs *)

Lemma length_wav_image data : length (wav_image data) = (44 + length data)%nat.
Proof. reflexivity. Qed.

Example wav_image_two_frames :
  wav_image [x01; x02; x03; x04] =
    [x52; x49; x46; x46; x28; x00; x00; x00; x57; x41; x56; x45;
     x66; x6d; x74; x20; x10; x00; x00; x00; x01; x00; x01; x00;
     x44; xac; x00; x00; x88; x58; x01; x00; x02; x00; x10; x00;
     x64; x61; x74; x61; x04; x00; x00; x00; x01; x02; x03; x04].
Proof. reflexivity. Qed.

Example writeWAVE_imported_two_frames :
  let r := writeWAVE imported_globals "a.wav" [x01; x02; x03; x04] used_world in
  fst r = Return tt ∧
  files (snd r) !! "a.wav"%string = Some (wav_image [x01; x02; x03; x04]) ∧
  open_files (snd r) = ∅.
Proof. vm_compute. done. Qed.


(** ** Two calls in a row *)

Lemma files_after_two_calls g fname d1 d2 w :
  files (snd (writeWAVE g fname d2 (snd (writeWAVE g fname d1 w))))
  = files (snd (writeWAVE g fname d2 w)).
Proof.
  destruct (decide (g !! "wave"%string = Some (VModule "wave"))) as [Hg|Hg].
  - destruct (denied w !! fname) as [e|] eqn:Hd.
    + by rewrite (writeWAVE_denied g fname d1 w e).
    + destruct (writeWAVE_files g fname d1 w Hg Hd) as (Hf1 & Hd1 & Hl1).
      destruct (writeWAVE_files g fname d2 w Hg Hd) as (Hf2 & _ & _).
      destruct (writeWAVE_files g fname d2 (snd (writeWAVE g fname d1 w)) Hg)
        as (Hf12 & _ & _); [by rewrite Hd1|].
      by rewrite Hf12, Hf2, Hf1, Hl1, insert_insert_eq.
  - destruct (writeWAVE_unopened g fname d1 w) as [e He]; [by left|].
    by rewrite He.
Qed.

(** ** Where a call that opened the file can fail *)

(** [setparams] accepts the parameters the function passes. *)
Lemma setparams_fresh w fname fd id :
  setparams id (1, 2, 44100, 44100, "NONE"%string, "noncompressed"%string)
    (focus w fname [] fd 0 id
       (mk_Wave_write (Some fd) (Some fd) 0 0 0 0 None None 0 0 0 false None None))
  = (Return tt,
     focus w fname [] fd 0 id
       (mk_Wave_write (Some fd) (Some fd) 1 2 44100 44100 (Some "NONE"%string)
          (Some "noncompressed"%string) 0 0 0 false None None)).
Proof. exec. reflexivity. Qed.


(** ** [close] always closes the file *)

Lemma keeps_pure {A} id (m : M A) :
  (∀ w r w', m w = (r, w') → objs w' = objs w) → keeps_opened id m.
Proof. intros H w r w' E. by rewrite (H _ _ _ E). Qed.

Lemma keeps_ret {A} id (a : A) : keeps_opened id (ret a).
Proof. apply keeps_pure. by intros w r w' [= _ <-]. Qed.

Lemma keeps_mret {A} id (a : A) : keeps_opened id (mret a).
Proof. apply keeps_ret. Qed.

Lemma keeps_raise {A} id e : keeps_opened id (@raise A e).
Proof. apply keeps_pure. by intros w r w' [= _ <-]. Qed.

Lemma keeps_lift {A} id (o : outcome A) : keeps_opened id (lift o).
Proof. apply keeps_pure. by intros w r w' [= _ <-]. Qed.

Lemma keeps_bind {A B} id (m : M A) (k : A → M B) :
  keeps_opened id m → (∀ a, keeps_opened id (k a)) → keeps_opened id (m ≫= k).
Proof.
  intros Hm Hk w r w' E. rewrite bind_unfold in E.
  destruct (m w) as [[a|e] w1] eqn:Em.
  - rewrite (Hk a _ _ _ E). by eapply Hm.
  - injection E as <- <-. by eapply Hm.
Qed.

Lemma keeps_self id : keeps_opened id (self id).
Proof. apply keeps_pure. by intros w r w' [= _ <-]. Qed.

Lemma keeps_upd id f :
  (∀ o, ww_i_opened_the_file (f o) = ww_i_opened_the_file o) →
  keeps_opened id (upd id f).
Proof.
  intros Hf w r w' [= _ <-]. cbn [objs set_objs].
  by rewrite lookup_total_insert_eq.
Qed.

Lemma keeps_file_write id fd bs : keeps_opened id (file_write fd bs).
Proof.
  apply keeps_pure. intros w r w'. unfold file_write.
  destruct (open_files w !! fd); [|by intros [= _ <-]].
  destruct (fits _ _); by intros [= _ <-].
Qed.

Lemma keeps_file_tell id fd : keeps_opened id (file_tell fd).
Proof.
  apply keeps_pure. intros w r w'. unfold file_tell.
  destruct (open_files w !! fd); by intros [= _ <-].
Qed.

Lemma keeps_file_seek id fd pos : keeps_opened id (file_seek fd pos).
Proof.
  apply keeps_pure. intros w r w'. unfold file_seek.
  destruct (open_files w !! fd); by intros [= _ <-].
Qed.

Lemma keeps_file_flush id fd : keeps_opened id (file_flush fd).
Proof.
  apply keeps_pure. intros w r w'. unfold file_flush.
  destruct (open_files w !! fd); by intros [= _ <-].
Qed.

Lemma keeps_the_file id method : keeps_opened id (the_file id method).
Proof.
  apply keeps_bind; [apply keeps_self|].
  intros o. destruct (ww_file o); [apply keeps_ret|apply keeps_raise].
Qed.

Lemma keeps_tell_or_None id fd : keeps_opened id (tell_or_None id fd).
Proof.
  intros w r w'. unfold tell_or_None.
  destruct (file_tell fd w) as [[pos|e] w1] eqn:E.
  all: apply keeps_file_tell with (id := id) in E as <-.
  - by apply keeps_upd.
  - destruct e; try (by apply keeps_upd); by intros [= _ <-].
Qed.

Lemma keeps_seek_to id fd pos : keeps_opened id (seek_to fd pos).
Proof. destruct pos; [apply keeps_file_seek|apply keeps_raise]. Qed.

Ltac keeps :=
  repeat first
    [ apply keeps_bind; [|intros ?]
    | apply keeps_self | apply keeps_mret | apply keeps_ret | apply keeps_raise
    | apply keeps_lift
    | apply keeps_upd; intros ?; reflexivity
    | apply keeps_the_file | apply keeps_tell_or_None | apply keeps_seek_to
    | apply keeps_file_write | apply keeps_file_tell | apply keeps_file_seek
    | apply keeps_file_flush
    | match goal with |- keeps_opened _ (if ?b then _ else _) => destruct b end
    | match goal with |- keeps_opened _ (match ?x with _ => _ end) => destruct x end ].

Lemma keeps__write_header id n : keeps_opened id (_write_header id n).
Proof. unfold _write_header. keeps. Qed.

Lemma keeps__ensure_header_written id n :
  keeps_opened id (_ensure_header_written id n).
Proof. unfold _ensure_header_written. keeps. Qed.

Lemma keeps__patchheader id : keeps_opened id (_patchheader id).
Proof. unfold _patchheader. keeps. Qed.

(** Whatever the [try] part of [close] did, and also when it raised, the
    [finally] part has run: the file the instance opened is closed. *)
Lemma close_closes_the_file id fd w :
  ww_i_opened_the_file (objs w !!! id) = Some fd →
  open_files (snd (close id w)) !! fd = None.
Proof.
  intros Hfd. unfold close, try_finally.
  match goal with |- context [let (_, _) := ?body w in _] =>
    assert (Hk : keeps_opened id body); [|destruct (body w) as [r1 w1] eqn:E]
  end.
  { keeps. }
  apply Hk in E. rewrite Hfd in E.
  rewrite bind_unfold. unfold upd at 1. cbv beta iota.
  rewrite bind_unfold. unfold self at 1. cbv beta iota.
  cbn [objs set_objs]. rewrite lookup_total_insert_eq.
  change (ww_i_opened_the_file (with_file None (objs w1 !!! id)))
    with (ww_i_opened_the_file (objs w1 !!! id)).
  rewrite E. rewrite bind_unfold. unfold upd at 1. cbv beta iota.
  unfold file_close. cbn [snd open_files set_open_files set_objs].
  apply lookup_delete_eq.
Qed.

(** A [close] that raises: the platform lets no file grow beyond 3 bytes,
    so writing the header fails; the file is closed all the same. *)
Example close_raises_and_closes :
  let w0 := mk_world ∅ ∅ (Some 3%nat) ∅ ∅ in
  let w1 := snd (wave_open "a.wav" "wb" w0) in
  let w2 := snd (setparams 0%nat (1, 2, 44100, 44100, "NONE"%string,
                                  "noncompressed"%string) w1) in
  open_files w2 = {[ 0%nat := mk_file_obj "a.wav" 0 ]} ∧
  fst (close 0%nat w2) = Raise (OSError EFBIG None) ∧
  open_files (snd (close 0%nat w2)) = ∅.
Proof. vm_compute. done. Qed.

(** The body once the name, the attribute, [wave.open] and [setparams] have
    gone through. *)
Lemma writeWAVE_from_writeframes g fname data w :
  g !! "wave"%string = Some (VModule "wave") →
  denied w !! fname = None →
  let fd := fresh (dom (open_files w)) in
  let id := fresh (dom (objs w)) in
  let w4 := focus w fname [] fd 0 id
              (mk_Wave_write (Some fd) (Some fd) 1 2 44100 44100 (Some "NONE"%string)
                 (Some "noncompressed"%string) 0 0 0 false None None) in
  writeWAVE g fname data w
  = match writeframes id data w4 with
    | (Return _, w5) => close id w5
    | (Raise e, w') => (Raise e, w')
    end ∧
  writeframes_raises g fname data w
  = match writeframes id data w4 with
    | (Return _, _) => false
    | (Raise _, _) => true
    end.
Proof.
  intros Hg Hd fd id w4. unfold writeframes_raises, writeWAVE, load_global.
  rewrite Hg. unfold ret. rewrite bind_unfold. cbv beta iota.
  unfold getattr_open. rewrite decide_True by done.
  unfold ret. rewrite bind_unfold. cbv beta iota.
  rewrite bind_unfold, wave_open_focus by done. cbv beta iota zeta.
  rewrite bind_unfold, setparams_fresh. cbv beta iota.
  rewrite bind_unfold. fold fd id w4.
  by destruct (writeframes id data w4) as [[[]|e] w5].
Qed.


Lemma handle_open_when_writeframes_raises g fname data w :
  writeframes_raises g fname data w = true →
  ∃ pos, open_files (snd (writeWAVE g fname data w))
         = <[fresh (dom (open_files w)) := mk_file_obj fname pos]> (open_files w).
Proof.
  intros Hraises.
  destruct (writeWAVE_early_or_run g fname data w) as [(e & He & Hwhy)|(Hg & Hd & Hrun)].
  - exfalso. revert Hraises. unfold writeframes_raises, load_global.
    destruct (g !! "wave"%string) as [v|] eqn:Hg; [|done].
    unfold ret, getattr_open. destruct (decide (v = VModule "wave")) as [->|]; [|done].
    destruct Hwhy as [?|Hd]; [done|].
    unfold ret. by rewrite (wave_open_denied _ _ e).
  - destruct (writeWAVE_from_writeframes g fname data w Hg Hd) as [Hbody Hr].
    cbv zeta in Hbody, Hr. rewrite Hr in Hraises.
    destruct (writeframes _ data _) as [[[]|e] w5] eqn:Ew; [done|].
    rewrite Hbody in Hrun. rewrite Hbody.
    inversion Hrun; subst. by eexists.
Qed.

(** * The claims *)

(** C1 (code as shipped).  The module never imports [wave]: on a writable
    path and a two-byte buffer the call raises [NameError] and the disk
    holds no file afterwards, where the claim expects a WAVE file with a
    mono, 16-bit, 44100 Hz header. *)
Theorem writeWAVE_as_shipped_writes_no_file :
  writeWAVE module_globals "out.wav" [x00; x00] empty_world
    = (Raise (NameError "wave"), empty_world) ∧
  files empty_world !! "out.wav"%string = None.
Proof. split; reflexivity. Qed.

(** C2.  After a call that returns, the file at [fname] has a data chunk
    whose declared length and whose actual length are the length of
    [data]; the chunk is [data] itself. *)
Theorem payload_length_matches g fname data w w' :
  writeWAVE g fname data w = (Return tt, w') →
  ∃ c, files w' !! fname = Some c ∧
       header_data_length c = Z.of_nat (length data) ∧
       length (payload c) = length data ∧
       payload c = data.
Proof.
  intros Hr. apply writeWAVE_returns in Hr as (o & -> & _ & _ & _ & _ & Hn & _).
  exists (wav_image data). cbn [files]. rewrite lookup_insert_eq.
  destruct (wav_image_fields data Hn) as (_ & _ & _ & _ & _ & _ & _ & Hlen & Hp).
  by rewrite Hp.
Qed.

Lemma payload_length_matches_witness :
  let r := writeWAVE imported_globals "a.wav" [x01; x02; x03; x04] used_world in
  r = (Return tt, snd r) ∧
  ∃ c, files (snd r) !! "a.wav"%string = Some c ∧
       header_data_length c = 4 ∧ length (payload c) = 4%nat ∧
       payload c = [x01; x02; x03; x04].
Proof.
  split; [vm_compute; reflexivity|].
  apply (payload_length_matches imported_globals "a.wav" [x01; x02; x03; x04] used_world).
  vm_compute. reflexivity.
Defined.

(** C3.  In the namespace the source file builds, which binds no name
    [wave], every call raises [NameError] for [wave] and leaves the world
    untouched: no file is opened, created or written. *)
Theorem writeWAVE_as_shipped_raises_NameError fname data w :
  writeWAVE module_globals fname data w = (Raise (NameError "wave"), w).
Proof. apply writeWAVE_unbound. reflexivity. Qed.

(** C4 (code as shipped).  The file at ["a.wav"] holds an old recording.
    Two calls on that path, first on one buffer and then on another, both
    raise [NameError]; the second truncates nothing and overwrites nothing:
    the old bytes are still there, where a WAVE image of the second buffer
    is expected. *)
Theorem second_call_as_shipped_overwrites_nothing :
  let old := [x52; x49; x46; x46; xff; xff] in
  let d1 := [x01; x02] in
  let d2 := [x03; x04; x05; x06] in
  let r1 := writeWAVE module_globals "a.wav" d1 used_world in
  let r2 := writeWAVE module_globals "a.wav" d2 (snd r1) in
  files used_world !! "a.wav"%string = Some old ∧
  fst r2 = Raise (NameError "wave") ∧
  files (snd r2) !! "a.wav"%string = Some old ∧
  files (snd r2) !! "a.wav"%string ≠ Some (wav_image d2).
Proof.
  intros old d1 d2 r1 r2.
  assert (H : files (snd r2) !! "a.wav"%string = Some old) by reflexivity.
  split; [reflexivity|]. split; [reflexivity|]. split; [exact H|].
  rewrite H. discriminate.
Qed.

(** With [wave] bound to the module the second call does replace the
    file: when it returns, the file is the image of the second buffer and
    nothing of the first call remains. *)
Lemma second_call_leaves_second_image g fname d1 d2 w w' :
  writeWAVE g fname d2 (snd (writeWAVE g fname d1 w)) = (Return tt, w') →
  files w' !! fname = Some (wav_image d2).
Proof.
  intros Hr. apply writeWAVE_returns in Hr as (o & -> & _).
  cbn [files]. apply lookup_insert_eq.
Qed.

(** C5 (code as shipped).  The platform refuses ["ro.wav"] with a
    permission error.  The call on that path raises [NameError] for
    [wave], where the error [open] reports is expected: [open] is never
    reached. *)
Theorem unwritable_path_as_shipped_raises_NameError :
  denied used_world !! "ro.wav"%string = Some (OSError EACCES (Some "ro.wav"%string)) ∧
  writeWAVE module_globals "ro.wav" [x01; x02] used_world
    = (Raise (NameError "wave"), used_world) ∧
  NameError "wave" ≠ OSError EACCES (Some "ro.wav"%string).
Proof. split; [reflexivity|]. split; [reflexivity|]. discriminate. Qed.

(** C6.  An exception raised at any point inside [writeWAVE] (resolving
    [wave], looking up [open], or in one of the four calls) reaches the
    caller as it is, and the world is the one the failing step left: there
    is no handler, no wrapping and no second attempt. *)
Theorem failures_propagate g fname data w e w' :
  raised_inside g fname data w e w' →
  writeWAVE g fname data w = (Raise e, w').
Proof.
  intros Hin. unfold writeWAVE.
  destruct Hin as [H1|? ? H1 H2|? ? ? ? H1 H2 H3|? ? ? ? ? ? H1 H2 H3 H4
                  |? ? ? ? ? ? ? H1 H2 H3 H4 H5|? ? ? ? ? ? ? ? H1 H2 H3 H4 H5 H6].
  all: rewrite bind_unfold, H1; cbv beta iota; try done.
  all: rewrite bind_unfold, H2; cbv beta iota; try done.
  all: rewrite bind_unfold, H3; cbv beta iota; try done.
  all: rewrite bind_unfold, H4; cbv beta iota; try done.
  all: rewrite bind_unfold, H5; cbv beta iota; done.
Qed.

Lemma failures_propagate_witness :
  let data := replicate 10 x00 in
  let w' := snd (writeWAVE imported_globals "a.wav" data small_world) in
  raised_inside imported_globals "a.wav" data small_world (OSError EFBIG None) w' ∧
  writeWAVE imported_globals "a.wav" data small_world = (Raise (OSError EFBIG None), w').
Proof.
  intros data w'.
  assert (Hin : raised_inside imported_globals "a.wav" data small_world
                  (OSError EFBIG None) w').
  { eapply in_writeframes.
    - reflexivity.
    - reflexivity.
    - vm_compute. reflexivity.
    - vm_compute. reflexivity.
    - vm_compute. reflexivity. }
  split; [exact Hin|].
  exact (failures_propagate imported_globals "a.wav" data small_world _ _ Hin).
Defined.

(** Conversely, an exception that reaches the caller was raised at one of
    those points. *)
Lemma raise_comes_from_inside g fname data w e w' :
  writeWAVE g fname data w = (Raise e, w') → raised_inside g fname data w e w'.
Proof.
  unfold writeWAVE. rewrite bind_unfold.
  destruct (load_global g "wave" w) as [[wave|e1] w1] eqn:H1;
    [|intros [= <- <-]; by apply in_name].
  rewrite bind_unfold.
  destruct (getattr_open wave w1) as [[op|e2] w2] eqn:H2;
    [|intros [= <- <-]; by eapply in_attribute].
  rewrite bind_unfold.
  destruct (op fname "wb"%string w2) as [[file|e3] w3] eqn:H3;
    [|intros [= <- <-]; by eapply in_open].
  cbv zeta. rewrite bind_unfold.
  destruct (setparams file _ w3) as [[[]|e4] w4] eqn:H4;
    [|intros [= <- <-]; by eapply in_setparams].
  rewrite bind_unfold.
  destruct (writeframes file data w4) as [[[]|e5] w5] eqn:H5;
    [|intros [= <- <-]; by eapply in_writeframes].
  intros H6. by eapply in_close.
Qed.

(** C7.  Whatever the buffer, a [Wave_write] instance the call creates has
    its frame count declared as 44100. *)
Theorem declared_frame_count g fname data w id o :
  objs w !! id = None →
  objs (snd (writeWAVE g fname data w)) !! id = Some o →
  ww_nframes o = 44100.
Proof.
  intros Hnew.
  destruct (writeWAVE_early_or_run g fname data w) as [(e & He & _)|(_ & _ & Hrun)].
  - rewrite He. cbn. congruence.
  - inversion Hrun as [o' c _ _ _ Ho _ _ _ E|e o' c pos _ _ Ho _ E]; cbn [snd objs].
    all: destruct (decide (fresh (dom (objs w)) = id)) as [<-|Hne].
    all: rewrite ?lookup_insert_eq, ?lookup_insert_ne by done.
    all: try congruence.
    all: intros [= <-]; apply Ho.
Qed.

Lemma declared_frame_count_witness :
  let r := writeWAVE imported_globals "a.wav" [x01; x02; x03; x04; x05; x06] empty_world in
  let o := default inhabitant (objs (snd r) !! 0%nat) in
  objs empty_world !! 0%nat = None ∧
  objs (snd r) !! 0%nat = Some o ∧
  ww_nframeswritten o = 3 ∧
  ww_nframes o = 44100.
Proof.
  intros r o. split; [reflexivity|]. split; [vm_compute; reflexivity|].
  split; [vm_compute; reflexivity|].
  apply (declared_frame_count imported_globals "a.wav"
           [x01; x02; x03; x04; x05; x06] empty_world 0%nat o).
  - reflexivity.
  - vm_compute. reflexivity.
Defined.

(** C8.  After a call that returns, the file is a RIFF container of form
    [WAVE] whose format chunk carries the PCM tag, and the instance that
    wrote it has compression type ['NONE'], named ['noncompressed']. *)
Theorem returns_uncompressed_PCM g fname data w w' :
  writeWAVE g fname data w = (Return tt, w') →
  ∃ c o, files w' !! fname = Some c ∧
         take 4 c = b_RIFF ∧ take 8 (drop 8 c) = b_WAVE ++ b_fmt ∧
         header_format_tag c = WAVE_FORMAT_PCM ∧
         objs w' !! fresh (dom (objs w)) = Some o ∧
         ww_comptype o = Some "NONE"%string ∧
         ww_compname o = Some "noncompressed"%string.
Proof.
  intros Hr. apply writeWAVE_returns in Hr as (o & -> & Ho & _ & _ & _ & Hn & _).
  exists (wav_image data), o. cbn [files objs]. rewrite !lookup_insert_eq.
  destruct (wav_image_fields data Hn) as (? & _ & ? & ? & _).
  destruct Ho as (_ & _ & _ & _ & ? & ?). done.
Qed.

Lemma returns_uncompressed_PCM_witness :
  let r := writeWAVE imported_globals "a.wav" [x01; x02; x03; x04] used_world in
  r = (Return tt, snd r) ∧
  ∃ c o, files (snd r) !! "a.wav"%string = Some c ∧
         take 4 c = b_RIFF ∧ take 8 (drop 8 c) = b_WAVE ++ b_fmt ∧
         header_format_tag c = WAVE_FORMAT_PCM ∧
         objs (snd r) !! fresh (dom (objs used_world)) = Some o ∧
         ww_comptype o = Some "NONE"%string ∧
         ww_compname o = Some "noncompressed"%string.
Proof.
  split; [vm_compute; reflexivity|].
  apply (returns_uncompressed_PCM imported_globals "a.wav" [x01; x02; x03; x04] used_world).
  vm_compute. reflexivity.
Defined.




(** C10.  Calling twice with the same path and buffer leaves the disk as
    calling once does; and two calls that return, from whatever worlds,
    leave byte-identical contents at the path, which are a function of the
    buffer alone. *)
Theorem same_arguments_same_file g fname data :
  (∀ w, files (snd (writeWAVE g fname data (snd (writeWAVE g fname data w))))
        = files (snd (writeWAVE g fname data w))) ∧
  (∀ w1 w2 w1' w2',
     writeWAVE g fname data w1 = (Return tt, w1') →
     writeWAVE g fname data w2 = (Return tt, w2') →
     files w1' !! fname = files w2' !! fname ∧
     files w1' !! fname = Some (wav_image data)).
Proof.
  split; [intros w; apply files_after_two_calls|].
  intros w1 w2 w1' w2' H1 H2.
  apply writeWAVE_returns in H1 as (o1 & -> & _).
  apply writeWAVE_returns in H2 as (o2 & -> & _).
  cbn [files]. by rewrite !lookup_insert_eq.
Qed.

Lemma same_arguments_same_file_witness :
  let data := [x01; x02; x03; x04] in
  let r1 := writeWAVE imported_globals "a.wav" data empty_world in
  let r2 := writeWAVE imported_globals "a.wav" data used_world in
  r1 = (Return tt, snd r1) ∧ r2 = (Return tt, snd r2) ∧
  files (snd r1) !! "a.wav"%string = files (snd r2) !! "a.wav"%string ∧
  files (snd r1) !! "a.wav"%string = Some (wav_image data).
Proof.
  split; [vm_compute; reflexivity|]. split; [vm_compute; reflexivity|].
  apply (proj2 (same_arguments_same_file imported_globals "a.wav" [x01; x02; x03; x04])
           empty_world used_world).
  - vm_compute. reflexivity.
  - vm_compute. reflexivity.
Defined.

(** * Further properties of [writeWAVE] *)

(** ** When a call returns *)

Lemma writeWAVE_returns_iff g fname data w :
  g !! "wave"%string = Some (VModule "wave") →
  fst (writeWAVE g fname data w) = Return tt ↔
  denied w !! fname = None ∧
  fits (fsize_limit w) (44 + length data) = true ∧
  36 + Z.of_nat (length data) < 2 ^ 32.
Proof.
  intros Hg. split.
  - intros Hr. destruct (writeWAVE g fname data w) as [r w'] eqn:E.
    cbn in Hr. subst r.
    apply writeWAVE_returns in E as (o & _ & _ & _ & _ & Hf & Hn & _ & Hd). done.
  - intros (Hd & Hf & Hn). rewrite writeWAVE_bound by done.
    pose proof (writeWAVE_imported w fname data Hd) as Hrun.
    inversion Hrun as [o c _ _ _ _ _ _ _ E|e o c pos Hc _ _ _ E]; [done|].
    destruct Hc as [[? _]|(_ & ? & _)]; [congruence|lia].
Qed.

(** X1.  With [wave] bound to the module, a call returns exactly when the
    path can be opened, the platform lets the file grow to the header plus
    the buffer, and the lengths fit the header's 32-bit fields. Nothing else
    is asked of the buffer: its length need not be a whole number of frames. *)
Theorem returns_exactly_when g fname data w :
  g !! "wave"%string = Some (VModule "wave") →
  fst (writeWAVE g fname data w) = Return tt ↔
  denied w !! fname = None ∧
  fits (fsize_limit w) (44 + length data) = true ∧
  36 + Z.of_nat (length data) < 2 ^ 32.
Proof. apply writeWAVE_returns_iff. Qed.

Lemma returns_exactly_when_witness :
  imported_globals !! "wave"%string = Some (VModule "wave") ∧
  (fst (writeWAVE imported_globals "a.wav" [x01; x02; x03] used_world) = Return tt ↔
   denied used_world !! "a.wav"%string = None ∧
   fits (fsize_limit used_world) (44 + length [x01; x02; x03]) = true ∧
   36 + Z.of_nat (length [x01; x02; x03]) < 2 ^ 32).
Proof.
  split; [reflexivity|].
  apply (returns_exactly_when imported_globals "a.wav" [x01; x02; x03] used_world).
  reflexivity.
Defined.

(** ** The header of a file a call returned from *)

(** X2.  The file declares one channel, 16 bits per sample and 44100 frames
    per second. *)
Theorem returned_header_declares_format g fname data w w' :
  writeWAVE g fname data w = (Return tt, w') →
  ∃ c, files w' !! fname = Some c ∧
       header_nchannels c = 1 ∧
       header_bits_per_sample c = 16 ∧
       header_framerate c = 44100.
Proof.
  intros Hr. apply writeWAVE_returns in Hr as (o & -> & _ & _ & _ & _ & Hn & _).
  exists (wav_image data). cbn [files]. rewrite lookup_insert_eq.
  destruct (wav_image_fields data Hn) as (_ & _ & _ & _ & ? & ? & ? & _). done.
Qed.

Lemma returned_header_declares_format_witness :
  let r := writeWAVE imported_globals "a.wav" [x01; x02; x03; x04] used_world in
  r = (Return tt, snd r) ∧
  ∃ c, files (snd r) !! "a.wav"%string = Some c ∧
       header_nchannels c = 1 ∧ header_bits_per_sample c = 16 ∧
       header_framerate c = 44100.
Proof.
  split; [vm_compute; reflexivity|].
  apply (returned_header_declares_format imported_globals "a.wav"
           [x01; x02; x03; x04] used_world).
  vm_compute. reflexivity.
Defined.

(** X3.  The two length fields agree with the size of the file: it is 44
    bytes longer than the buffer, the RIFF length is the file size less 8
    and the data length the file size less 44. *)
Theorem returned_header_sizes_agree g fname data w w' :
  writeWAVE g fname data w = (Return tt, w') →
  ∃ c, files w' !! fname = Some c ∧
       length c = (44 + length data)%nat ∧
       header_form_length c = Z.of_nat (length c) - 8 ∧
       header_data_length c = Z.of_nat (length c) - 44.
Proof.
  intros Hr. apply writeWAVE_returns in Hr as (o & -> & _ & _ & _ & _ & Hn & _).
  exists (wav_image data). cbn [files]. rewrite lookup_insert_eq.
  destruct (wav_image_fields data Hn) as (_ & Hform & _ & _ & _ & _ & _ & Hlen & _).
  rewrite Hform, Hlen, length_wav_image. repeat split; lia.
Qed.

Lemma returned_header_sizes_agree_witness :
  let r := writeWAVE imported_globals "a.wav" [x01; x02; x03] empty_world in
  r = (Return tt, snd r) ∧
  ∃ c, files (snd r) !! "a.wav"%string = Some c ∧
       length c = 47%nat ∧
       header_form_length c = Z.of_nat (length c) - 8 ∧
       header_data_length c = Z.of_nat (length c) - 44.
Proof.
  split; [vm_compute; reflexivity|].
  apply (returned_header_sizes_agree imported_globals "a.wav" [x01; x02; x03] empty_world).
  vm_compute. reflexivity.
Defined.

(** X4.  The derived fields agree with the declared ones: the byte rate is
    channels times frame rate times bytes per sample, and the block
    alignment is channels times bytes per sample. *)
Theorem returned_header_rates_agree g fname data w w' :
  writeWAVE g fname data w = (Return tt, w') →
  ∃ c, files w' !! fname = Some c ∧
       header_byte_rate c
         = header_nchannels c * header_framerate c * (header_bits_per_sample c / 8) ∧
       header_block_align c = header_nchannels c * (header_bits_per_sample c / 8).
Proof.
  intros Hr. apply writeWAVE_returns in Hr as (o & -> & _).
  exists (wav_image data). cbn [files]. rewrite lookup_insert_eq.
  split; [done|]. split; reflexivity.
Qed.

Lemma returned_header_rates_agree_witness :
  let r := writeWAVE imported_globals "a.wav" [x01; x02; x03; x04] empty_world in
  r = (Return tt, snd r) ∧
  ∃ c, files (snd r) !! "a.wav"%string = Some c ∧
       header_byte_rate c
         = header_nchannels c * header_framerate c * (header_bits_per_sample c / 8) ∧
       header_block_align c = header_nchannels c * (header_bits_per_sample c / 8).
Proof.
  split; [vm_compute; reflexivity|].
  apply (returned_header_rates_agree imported_globals "a.wav"
           [x01; x02; x03; x04] empty_world).
  vm_compute. reflexivity.
Defined.

(** X5.  The number of frames a reader finds in the file, the data length
    over the block alignment, is the number of whole frames in the buffer,
    not the nominal 44100 the function declares. *)
Theorem returned_frame_count_is_actual g fname data w w' :
  writeWAVE g fname data w = (Return tt, w') →
  ∃ c, files w' !! fname = Some c ∧
       header_data_length c / header_block_align c = Z.of_nat (length data) / 2.
Proof.
  intros Hr. apply writeWAVE_returns in Hr as (o & -> & _ & _ & _ & _ & Hn & _).
  exists (wav_image data). cbn [files]. rewrite lookup_insert_eq.
  destruct (wav_image_fields data Hn) as (_ & _ & _ & _ & _ & _ & _ & Hlen & _).
  split; [done|]. rewrite Hlen. reflexivity.
Qed.

Lemma returned_frame_count_is_actual_witness :
  let r := writeWAVE imported_globals "a.wav" [x01; x02; x03; x04; x05] empty_world in
  r = (Return tt, snd r) ∧
  ∃ c, files (snd r) !! "a.wav"%string = Some c ∧
       header_data_length c / header_block_align c = 2.
Proof.
  split; [vm_compute; reflexivity|].
  apply (returned_frame_count_is_actual imported_globals "a.wav"
           [x01; x02; x03; x04; x05] empty_world).
  vm_compute. reflexivity.
Defined.

(** ** The empty buffer *)

(** X6.  An empty buffer is accepted: the call returns and leaves the
    44-byte header alone, with the RIFF length 36 and the data length 0 in
    place of the nominal 44100 frames. *)
Theorem empty_buffer_leaves_bare_header g fname w :
  g !! "wave"%string = Some (VModule "wave") →
  denied w !! fname = None →
  fits (fsize_limit w) 44 = true →
  ∃ w', writeWAVE g fname [] w = (Return tt, w') ∧
        files w' !! fname = Some (wav_header 36 0) ∧
        header_data_length (wav_header 36 0) = 0 ∧
        open_files w' = open_files w.
Proof.
  intros Hg Hd Hf. rewrite writeWAVE_bound by done.
  pose proof (writeWAVE_imported w fname [] Hd) as Hrun.
  inversion Hrun as [o c _ _ Hc _ _ _ _ E|e o c pos Hc _ _ _ E]; subst.
  - eexists. split; [done|]. cbn [files open_files]. by rewrite lookup_insert_eq.
  - cbn [length Nat.add] in Hc. change (44 + 0)%nat with 44%nat in Hc.
    destruct Hc as [[? _]|(_ & ? & _)]; [congruence|]. cbn in *. lia.
Qed.

Lemma empty_buffer_leaves_bare_header_witness :
  imported_globals !! "wave"%string = Some (VModule "wave") ∧
  denied used_world !! "a.wav"%string = None ∧
  fits (fsize_limit used_world) 44 = true ∧
  ∃ w', writeWAVE imported_globals "a.wav" [] used_world = (Return tt, w') ∧
        files w' !! "a.wav"%string = Some (wav_header 36 0) ∧
        header_data_length (wav_header 36 0) = 0 ∧
        open_files w' = open_files used_world.
Proof.
  split; [reflexivity|]. split; [reflexivity|]. split; [reflexivity|].
  apply (empty_buffer_leaves_bare_header imported_globals "a.wav" used_world);
    reflexivity.
Defined.

(** ** What a call leaves alone *)

(** X8.  File objects that were open before the call are still open
    afterwards, on the same path and at the same position, and the
    [Wave_write] instances that existed are unchanged: the call closes and
    repositions only what it opened itself. *)
Theorem other_objects_untouched g fname data w :
  (∀ fd fo, open_files w !! fd = Some fo →
            open_files (snd (writeWAVE g fname data w)) !! fd = Some fo) ∧
  (∀ id o, objs w !! id = Some o →
           objs (snd (writeWAVE g fname data w)) !! id = Some o).
Proof.
  assert (Hfd : ∀ fd fo, open_files w !! fd = Some fo → fresh (dom (open_files w)) ≠ fd).
  { intros fd fo H <-. rewrite fresh_fd in H. discriminate. }
  assert (Hid : ∀ id o, objs w !! id = Some o → fresh (dom (objs w)) ≠ id).
  { intros id o H <-.
    assert (objs w !! fresh (dom (objs w)) = None) as Hnone
      by apply not_elem_of_dom, is_fresh.
    congruence. }
  destruct (writeWAVE_early_or_run g fname data w) as [(e & He & _)|(_ & _ & Hrun)].
  - rewrite He. done.
  - inversion Hrun; cbn [snd open_files objs]; split; intros ? ? Hold.
    all: rewrite ?lookup_insert_ne by eauto; done.
Qed.

Lemma other_objects_untouched_witness :
  let r := writeWAVE imported_globals "a.wav" [x01; x02] busy_world in
  open_files busy_world !! 0%nat = Some (mk_file_obj "b.wav" 3) ∧
  open_files (snd r) !! 0%nat = Some (mk_file_obj "b.wav" 3) ∧
  is_Some (objs busy_world !! 0%nat) ∧
  objs (snd r) !! 0%nat = objs busy_world !! 0%nat.
Proof.
  intros r.
  split; [reflexivity|].
  split.
  - apply (proj1 (other_objects_untouched imported_globals "a.wav" [x01; x02] busy_world)).
    reflexivity.
  - split; [eexists; reflexivity|].
    apply (proj2 (other_objects_untouched imported_globals "a.wav" [x01; x02] busy_world)).
    reflexivity.
Defined.
